(** * ChatGPT_VTT_TTS.py: control flow of the voice chat loop

    A shallow embedding of [ChatGPT_VTT_TTS.py].  The program is a
    sequential pipeline over three cloud services (speech recognition,
    chat completion, speech synthesis) and a local audio player.  The
    services are outside the program: every call to one of them is
    answered by an explicit description of the outside world, and every
    observable action is recorded in a trace.

    Characters are Unicode code points below 256 (the [ascii] type read
    as Latin-1); [str.strip] and [str.lower] are written out for that
    range. *)

From Stdlib Require Import Ascii String.
From stdpp Require Import base decidable option list strings gmap.

Open Scope string_scope.
Open Scope list_scope.

(** * Part I: the program *)

(** ** Python string primitives *)

Module PyStr.

(** [str.isspace] on one code point below 256: TAB..CR, FS..US, space,
    NEL (0x85) and NBSP (0xA0). *)
Definition isspace (c : ascii) : bool :=
  let n := nat_of_ascii c in
  (Nat.leb 9 n && Nat.leb n 13) || (Nat.leb 28 n && Nat.leb n 32)
  || Nat.eqb n 133 || Nat.eqb n 160.

(** [str.lower] on one code point below 256: A..Z and the Latin-1
    capitals 0xC0..0xDE except the multiplication sign 0xD7. *)
Definition lower_char (c : ascii) : ascii :=
  let n := nat_of_ascii c in
  if (Nat.leb 65 n && Nat.leb n 90)
     || (Nat.leb 192 n && Nat.leb n 222 && negb (Nat.eqb n 215))
  then ascii_of_nat (n + 32) else c.

Fixpoint lower (s : string) : string :=
  match s with
  | EmptyString => EmptyString
  | String c s' => String (lower_char c) (lower s')
  end.

Fixpoint lstrip (s : string) : string :=
  match s with
  | EmptyString => EmptyString
  | String c s' => if isspace c then lstrip s' else s
  end.

Fixpoint rstrip (s : string) : string :=
  match s with
  | EmptyString => EmptyString
  | String c s' =>
      match rstrip s' with
      | EmptyString => if isspace c then EmptyString else String c EmptyString
      | r => String c r
      end
  end.

(** [s.strip()] with no argument. *)
Definition strip (s : string) : string := rstrip (lstrip s).

(** Every character of [s] is whitespace. *)
Fixpoint all_space (s : string) : bool :=
  match s with
  | EmptyString => true
  | String c s' => isspace c && all_space s'
  end.

(** Truth value of a string: the empty string is falsy. *)
Definition truthy (s : string) : bool :=
  match s with EmptyString => false | String _ _ => true end.

(** The line feed, written [\n] in the source. *)
Definition nl : string := String (ascii_of_nat 10) EmptyString.

(** [needle in hay]. *)
Fixpoint contains (needle hay : string) : bool :=
  String.prefix needle hay
  || match hay with
     | EmptyString => false
     | String _ hay' => contains needle hay'
     end.

End PyStr.

(** ** Whitespace at the ends of a string *)

Module PyTrim.

Import PyStr.

(** The string begins with whitespace. *)
Definition starts_space (s : string) : bool :=
  match s with
  | EmptyString => false
  | String c _ => isspace c
  end.

(** The string ends with whitespace. *)
Fixpoint ends_space (s : string) : bool :=
  match s with
  | EmptyString => false
  | String c s' =>
      match s' with
      | EmptyString => isspace c
      | String _ _ => ends_space s'
      end
  end.

(** No whitespace at either end. *)
Definition trimmed (s : string) : bool :=
  negb (starts_space s) && negb (ends_space s).

End PyTrim.

(** ** Data of the speech SDK *)

(** The exception classes the program can meet.  All of them derive from
    [Exception]; [KeyboardInterrupt] and [SystemExit] are delivered by the
    interpreter, not raised by the services. *)
Inductive ExnClass :=
| TypeError
| ValueError
| RuntimeError
| OSError
| EOFError
| CalledProcessError
| OtherException (name : string).

(** An exception instance; [exn_msg] is what [str(e)] gives. *)
Record exn := Exn { exn_class : ExnClass; exn_msg : string }.

(** [speechsdk.ResultReason]: the members the program tests, and the rest
    by their number. *)
Inductive ResultReason :=
| NoMatch
| Canceled
| RecognizedSpeech
| SynthesizingAudioCompleted
| OtherReason (code : nat).

(** [speechsdk.CancellationReason]. *)
Inductive CancellationReason :=
| Error
| EndOfStream
| CancelledByUser.

(** [str(reason)] of an enum member. *)
Definition str_CancellationReason (r : CancellationReason) : string :=
  match r with
  | Error => "CancellationReason.Error"
  | EndOfStream => "CancellationReason.EndOfStream"
  | CancelledByUser => "CancellationReason.CancelledByUser"
  end.

Record CancellationDetails := {
  cd_reason : CancellationReason;
  error_details : string
}.

(** A [SpeechRecognitionResult]; [no_match_details] is kept as the text
    it is printed as. *)
Record SpeechRecognitionResult := {
  reason : ResultReason;
  text : string;
  no_match_details : string;
  cancellation_details : CancellationDetails
}.

(** A [SpeechSynthesisResult]. *)
Record SpeechSynthesisResult := {
  s_reason : ResultReason;
  s_cancellation_details : CancellationDetails
}.

(** What a call returns or raises. *)
Inductive outcome (A : Type) :=
| Returns (a : A)
| Raises (e : exn).
Arguments Returns {A} a.
Arguments Raises {A} e.

(** ** The outside world of one turn

    One answer for every call the turn can make to something outside the
    program.  An answer to a call the turn does not make is ignored. *)
Record World := {
  (* AudioConfig(use_default_microphone=True) and SpeechRecognizer(...) *)
  w_recognizer : outcome unit;
  (* recognize_once_async().get() *)
  w_recognize : outcome SpeechRecognitionResult;
  (* client.chat.completions.create(...).choices[0].message.content *)
  w_chat : outcome string;
  (* AudioConfig(filename=...) and SpeechSynthesizer(...) *)
  w_synthesizer : outcome unit;
  (* speak_text_async(text).get() *)
  w_speak : outcome SpeechSynthesisResult;
  (* whether the synthesizer left a file at the path it was given *)
  w_audio_written : bool;
  (* open(os.devnull) and subprocess.run([ffplay ...], check=True) *)
  w_ffplay : outcome unit;
  (* os.remove(path) *)
  w_remove : outcome unit;
  (* input(prompt), the line without its newline *)
  w_input : outcome string
}.

(** The regular files that exist in the working directory. *)
Abbreviation Files := (gset string).

(** Observable actions, in the order they happen. *)
Inductive Event :=
| EvPrint (line : string)
| EvOpenRecognizer
| EvRecognize
| EvChatCompletion (model prompt : string)
| EvOpenSynthesizer (filename : string)
| EvSynthesize (text : string)
| EvPlay (argv : list string)
| EvRemove (path : string)
| EvInput (prompt : string)
| EvSleep (seconds : nat).

Abbreviation Trace := (list Event).

(** ** Computations

    A computation reads the world of the turn, threads the files, appends
    to the trace, and returns or raises. *)
Definition M (A : Type) : Type := World → Files → Trace * Files * outcome A.

Definition ret {A} (a : A) : M A := λ _ fs, ([], fs, Returns a).

Definition bind {A B} (m : M A) (k : A → M B) : M B :=
  λ w fs,
    match m w fs with
    | (tr, fs', Returns a) =>
        match k a w fs' with
        | (tr', fs'', r) => (tr ++ tr', fs'', r)
        end
    | (tr, fs', Raises e) => (tr, fs', Raises e)
    end.

(** [try: m  except Exception as e: h e]. *)
Definition try_except {A} (m : M A) (h : exn → M A) : M A :=
  λ w fs,
    match m w fs with
    | (tr, fs', Returns a) => (tr, fs', Returns a)
    | (tr, fs', Raises e) =>
        match h e w fs' with
        | (tr', fs'', r) => (tr ++ tr', fs'', r)
        end
    end.

(** [try: m  finally: f]: [f] runs whatever [m] did; an exception of [f]
    replaces the outcome of [m]. *)
Definition try_finally {A} (m : M A) (f : M unit) : M A :=
  λ w fs,
    match m w fs with
    | (tr, fs', r) =>
        match f w fs' with
        | (tr', fs'', Returns _) => (tr ++ tr', fs'', r)
        | (tr', fs'', Raises e) => (tr ++ tr', fs'', Raises e)
        end
    end.

Declare Scope py_scope.
Delimit Scope py_scope with py.
Notation "x <- m ;; k" := (bind m (λ x, k))
  (at level 100, m at next level, right associativity) : py_scope.
Notation "m ;; k" := (bind m (λ _, k))
  (at level 100, right associativity) : py_scope.
Open Scope py_scope.

(** One external call: an event, and the answer of the world. *)
Definition call {A} (ev : Event) (answer : World → outcome A) : M A :=
  λ w fs, ([ev], fs, answer w).

Definition print (line : string) : M unit :=
  call (EvPrint line) (λ _, Returns ()).

Definition sleep (seconds : nat) : M unit :=
  call (EvSleep seconds) (λ _, Returns ()).

Definition input (prompt : string) : M string :=
  call (EvInput prompt) w_input.

(** [os.path.isfile(path)]. *)
Definition isfile (path : string) : M bool :=
  λ _ fs, ([], fs, Returns (bool_decide (path ∈ fs))).

(** [os.remove(path)]: the file is gone when the call returns, and is
    left as it was when the call raises. *)
Definition os_remove (path : string) : M unit :=
  λ w fs,
    match w_remove w with
    | Returns _ => ([EvRemove path], fs ∖ {[path]}, Returns ())
    | Raises e => ([EvRemove path], fs, Raises e)
    end.

(** ** The three services *)

(** [chat_gpt(prompt)]: one user message to the fixed model; the content
    of the first choice, stripped. *)
Definition chat_gpt (prompt : string) : M string :=
  content <- call (EvChatCompletion "gpt-4o-mini" prompt) w_chat;;
  ret (PyStr.strip content).

(** [SpeechToTextManager.speechtotext_from_mic(self)].  The result is
    [Some text] for a returned string and [None] for Python's [None]. *)
Definition speechtotext_from_mic : M (option string) :=
  call EvOpenRecognizer w_recognizer;;
  print "Speak into your microphone...";;
  speech_recognition_result <- call EvRecognize w_recognize;;
  match reason speech_recognition_result with
  | RecognizedSpeech =>
      ret (Some (text speech_recognition_result))
  | NoMatch =>
      print ("No speech could be recognized: "
             +:+ no_match_details speech_recognition_result);;
      print "Retrying...";;
      ret None
  | Canceled =>
      let details := cancellation_details speech_recognition_result in
      print ("Speech Recognition canceled: "
             +:+ str_CancellationReason (cd_reason details));;
      match cd_reason details with
      | Error => print ("Error details: " +:+ error_details details)
      | _ => ret ()
      end;;
      ret None
  | _ => ret None
  end.

(** [subprocess.run(["ffplay", "-nodisp", "-autoexit", file_path],
    check=True, stderr=devnull)] inside [with open(os.devnull, 'wb')]. *)
Definition run_ffplay (file_path : string) : M unit :=
  call (EvPlay ["ffplay"; "-nodisp"; "-autoexit"; file_path]) w_ffplay.

(** [TextToSpeechManager.play_audio(self, file_path)]. *)
Definition play_audio (file_path : string) : M unit :=
  try_finally
    (try_except
       (run_ffplay file_path)
       (λ e, print ("An error occurred while playing audio: " +:+ exn_msg e)))
    (present <- isfile file_path;;
     if (present : bool)
     then try_except (os_remove file_path) (λ _, ret ())
     else ret ()).

(** [speak_text_async(text).get()] of a synthesizer writing to
    [filename]. *)
Definition speak_text (filename text : string) : M SpeechSynthesisResult :=
  λ w fs,
    ([EvSynthesize text],
     if w_audio_written w then {[filename]} ∪ fs else fs,
     w_speak w).

(** [TextToSpeechManager.text_to_speech(self, text)].  The line printed on
    cancellation is a plain string literal in the source, braces
    included. *)
Definition text_to_speech (text : string) : M unit :=
  call (EvOpenSynthesizer "output.wav") w_synthesizer;;
  result <- speak_text "output.wav" text;;
  match s_reason result with
  | SynthesizingAudioCompleted =>
      print "Speech synthesis completed.";;
      play_audio "output.wav"
  | Canceled =>
      let cancellation_details := s_cancellation_details result in
      print "Speech synthesis canceled: {cancellation_details.reason}";;
      match cd_reason cancellation_details with
      | Error => print ("Error details: " +:+ error_details cancellation_details)
      | _ => ret ()
      end
  | _ => ret ()
  end.

(** ** The session loop *)

(** How one iteration of [while True] ends. *)
Inductive Control := Break | Continue.

(** Truth value of [speech_text], a string or [None]. *)
Definition truthy (speech_text : option string) : bool :=
  match speech_text with
  | Some s => PyStr.truthy s
  | None => false
  end.

(** The first statements of the [try] block: transcribe, then complete and
    speak, or print the notice. *)
Definition respond : M unit :=
  speech_text <- speechtotext_from_mic;;
  if truthy speech_text then
    let speech_text := default "" speech_text in
    print (PyStr.nl +:+ "User: " +:+ speech_text);;
    chat_response <- chat_gpt speech_text;;
    print ("Bot: " +:+ chat_response);;
    text_to_speech chat_response
  else
    print "No valid speech input detected. Please try again.".

(** [user_exit == 'quit'] for the line read at the prompt. *)
Definition is_quit (line : string) : bool :=
  String.eqb (PyStr.lower (PyStr.strip line)) "quit".

(** The rest of the [try] block: the prompt, [break] or the sleep. *)
Definition ask_exit : M Control :=
  line <- input (PyStr.nl +:+ "Type 'quit' to exit or press Enter to continue: ");;
  if is_quit line then ret Break
  else (sleep 1;; ret Continue).

(** The [try] block. *)
Definition loop_body : M Control :=
  respond;; ask_exit.

(** One iteration: the [try] block under [except Exception as e]. *)
Definition iteration : M Control :=
  try_except loop_body
    (λ e, print ("An error occurred: " +:+ exn_msg e);;
          sleep 1;;
          ret Continue).

(** The two states of the session, and the end of the process by an
    exception that nothing caught. *)
Inductive Session :=
| RUNNING
| TERMINATED
| CRASHED (e : exn).

(** [while True] over the worlds of the successive turns.  The loop is
    still [RUNNING] when the given turns are used up. *)
Fixpoint main_loop (turns : list World) (fs : Files) : Trace * Files * Session :=
  match turns with
  | [] => ([], fs, RUNNING)
  | w :: turns' =>
      match iteration w fs with
      | (tr, fs', Returns Break) => (tr, fs', TERMINATED)
      | (tr, fs', Returns Continue) =>
          match main_loop turns' fs' with
          | (tr', fs'', st) => (tr ++ tr', fs'', st)
          end
      | (tr, fs', Raises e) => (tr, fs', CRASHED e)
      end
  end.

(** ** Start of the process *)

(** A [speechsdk.SpeechConfig] object: its truth value and the two
    attributes the managers set. *)
Record SpeechConfig := {
  cfg_truthy : bool;
  speech_recognition_language : option string;
  speech_synthesis_voice_name : option string
}.

(** How the statements before the loop end: they go on, [exit(msg)] ends
    the process with [msg], or an exception nothing catches ends it. *)
Inductive Init (A : Type) :=
| Ok (a : A)
| SystemExit (msg : string)
| Traceback (e : exn).
Arguments Ok {A} a.
Arguments SystemExit {A} msg.
Arguments Traceback {A} e.

(** How the process ends, or that it is still in the loop. *)
Inductive Process :=
| InLoop (st : Session)
| Exited (msg : string)
| Died (e : exn).

Section Startup.

(** [os.environ]. *)
Variable environ : gmap string string.

(** The constructor [speechsdk.SpeechConfig(subscription=, region=)] of
    the SDK, which is not part of the program. *)
Variable new_SpeechConfig : option string → option string → outcome SpeechConfig.

Definition getenv (name : string) : option string := environ !! name.

(** Lines 32 to 39: the key of the completion provider. *)
Definition load_api_key : Init string :=
  let api_key := getenv "OPENAI_API_KEY" in
  if negb (truthy api_key)
  then SystemExit "OpenAI API key is missing. Please set it in your environment variables."
  else Ok (default "" api_key).

(** [SpeechToTextManager.__init__]. *)
Definition SpeechToTextManager_init : Init SpeechConfig :=
  match new_SpeechConfig (getenv "AZURE_TTS_KEY") (getenv "AZURE_TTS_REGION") with
  | Raises e =>
      match exn_class e with
      | TypeError =>
          SystemExit "Azure keys are missing! Please set AZURE_TTS_KEY and AZURE_TTS_REGION as environment variables!"
      | _ => Traceback e
      end
  | Returns azure_speechconfig =>
      if negb (cfg_truthy azure_speechconfig)
      then SystemExit "Azure Speech SDK configuration failed."
      else Ok {| cfg_truthy := cfg_truthy azure_speechconfig;
                 speech_recognition_language := Some "en-US";
                 speech_synthesis_voice_name :=
                   speech_synthesis_voice_name azure_speechconfig |}
  end.

(** [TextToSpeechManager.__init__]. *)
Definition TextToSpeechManager_init : Init SpeechConfig :=
  match new_SpeechConfig (getenv "AZURE_TTS2_KEY") (getenv "AZURE_TTS_REGION") with
  | Raises e =>
      match exn_class e with
      | TypeError =>
          SystemExit "Azure keys are missing! Please set AZURE_TTS2_KEY and AZURE_TTS_REGION as environment variables!"
      | _ => Traceback e
      end
  | Returns azure_speechconfig =>
      if negb (cfg_truthy azure_speechconfig)
      then SystemExit "Azure Speech SDK configuration failed."
      else Ok {| cfg_truthy := cfg_truthy azure_speechconfig;
                 speech_recognition_language :=
                   speech_recognition_language azure_speechconfig;
                 speech_synthesis_voice_name :=
                   Some "en-US-AndrewMultilingualNeural" |}
  end.

(** The statements before [while True], in the order of the file. *)
Definition startup : Init (string * SpeechConfig * SpeechConfig) :=
  match load_api_key with
  | Ok api_key =>
      match SpeechToTextManager_init with
      | Ok speech_manager =>
          match TextToSpeechManager_init with
          | Ok tts_manager => Ok (api_key, speech_manager, tts_manager)
          | SystemExit msg => SystemExit msg
          | Traceback e => Traceback e
          end
      | SystemExit msg => SystemExit msg
      | Traceback e => Traceback e
      end
  | SystemExit msg => SystemExit msg
  | Traceback e => Traceback e
  end.

(** The whole program: the start, then the loop. *)
Definition program (turns : list World) (fs : Files) : Trace * Files * Process :=
  match startup with
  | Ok _ =>
      match main_loop turns fs with
      | (tr, fs', st) => (tr, fs', InLoop st)
      end
  | SystemExit msg => ([], fs, Exited msg)
  | Traceback e => ([], fs, Died e)
  end.

End Startup.


(** ** Reading a run *)

(** The trace, the files and the outcome of a run. *)
Definition trace_of {A} (r : Trace * Files * A) : Trace := r.1.1.

Definition files_of {A} (r : Trace * Files * A) : Files := r.1.2.

Definition result_of {A} (r : Trace * Files * A) : A := r.2.

Definition is_completion (ev : Event) : bool :=
  match ev with EvChatCompletion _ _ => true | _ => false end.

Definition is_synthesis (ev : Event) : bool :=
  match ev with
  | EvOpenSynthesizer _ | EvSynthesize _ | EvPlay _ => true
  | _ => false
  end.

Definition is_play (ev : Event) : bool :=
  match ev with EvPlay _ => true | _ => false end.

Definition is_input (ev : Event) : bool :=
  match ev with EvInput _ => true | _ => false end.

(** [f] holds of no event of the trace. *)
Definition never (f : Event → bool) (tr : Trace) : bool :=
  forallb (λ ev, negb (f ev)) tr.

(** The lines printed, in order. *)
Definition printed (tr : Trace) : list string :=
  omap (λ ev, match ev with EvPrint line => Some line | _ => None end) tr.

Definition is_remove (ev : Event) : bool :=
  match ev with EvRemove _ => true | _ => false end.

(** The completion requests of a trace: model and prompt. *)
Definition completions (tr : Trace) : list (string * string) :=
  omap (λ ev, match ev with
              | EvChatCompletion model prompt => Some (model, prompt)
              | _ => None
              end) tr.

(** The texts given to the synthesizer. *)
Definition synthesized (tr : Trace) : list string :=
  omap (λ ev, match ev with EvSynthesize text => Some text | _ => None end) tr.

(** The delays of a trace, in seconds. *)
Definition sleeps (tr : Trace) : list nat :=
  omap (λ ev, match ev with EvSleep seconds => Some seconds | _ => None end) tr.

(** ** The lines and events the program produces *)

(** The notice of a turn without an utterance, and the messages of
    [exit]. *)
Definition retry_notice : string :=
  "No valid speech input detected. Please try again.".

(** The prompt of the loop. *)
Definition exit_prompt : string :=
  PyStr.nl +:+ "Type 'quit' to exit or press Enter to continue: ".

Definition openai_missing : string :=
  "OpenAI API key is missing. Please set it in your environment variables.".

Definition azure_stt_missing : string :=
  "Azure keys are missing! Please set AZURE_TTS_KEY and AZURE_TTS_REGION as environment variables!".



(** What [speechtotext_from_mic] does before it has a result. *)
Definition listening : Trace :=
  [EvOpenRecognizer; EvPrint "Speak into your microphone..."; EvRecognize].

(** What [speechtotext_from_mic] prints after a recognition result. *)
Definition recognition_log (r : SpeechRecognitionResult) : Trace :=
  match reason r with
  | NoMatch =>
      [EvPrint ("No speech could be recognized: " +:+ no_match_details r);
       EvPrint "Retrying..."]
  | Canceled =>
      EvPrint ("Speech Recognition canceled: "
               +:+ str_CancellationReason (cd_reason (cancellation_details r)))
      :: match cd_reason (cancellation_details r) with
         | Error => [EvPrint ("Error details: " +:+ error_details (cancellation_details r))]
         | _ => []
         end
  | _ => []
  end.

(** What the guard of the loop does with an exception. *)
Definition guard_log (e : exn) : Trace :=
  [EvPrint ("An error occurred: " +:+ exn_msg e); EvSleep 1].

(** What [play_audio] prints when the player fails. *)
Definition playback_log (w : World) : Trace :=
  match w_ffplay w with
  | Raises e => [EvPrint ("An error occurred while playing audio: " +:+ exn_msg e)]
  | Returns _ => []
  end.

(** What [text_to_speech] does before it has a result. *)
Definition synthesizing (text : string) : Trace :=
  [EvOpenSynthesizer "output.wav"; EvSynthesize text].

(** The files once the synthesizer has run. *)
Definition written (w : World) (fs : Files) : Files :=
  if w_audio_written w then {["output.wav"]} ∪ fs else fs.

(** ** The quit token, in the words of the specification *)

(** One of the sixteen spellings of "quit" in upper and lower case. *)
Inductive spells_quit : string → Prop :=
| spells_quit_intro (q u i t : ascii) :
    q = "q"%char ∨ q = "Q"%char →
    u = "u"%char ∨ u = "U"%char →
    i = "i"%char ∨ i = "I"%char →
    t = "t"%char ∨ t = "T"%char →
    spells_quit (String q (String u (String i (String t EmptyString)))).

(** A line that is the token "quit", in any case, between blanks. *)
Definition quit_line (line : string) : Prop :=
  ∃ pre core post,
    line = pre +:+ core +:+ post
    ∧ PyStr.all_space pre = true
    ∧ PyStr.all_space post = true
    ∧ spells_quit core.

(** ** Sample turns and sample starts *)

Module Sample.

Definition no_details : CancellationDetails :=
  {| cd_reason := EndOfStream; error_details := "" |}.

Definition refused : CancellationDetails :=
  {| cd_reason := Error; error_details := "Connection failed" |}.

Definition heard (said : string) : SpeechRecognitionResult :=
  {| reason := RecognizedSpeech; text := said;
     no_match_details := ""; cancellation_details := no_details |}.

Definition silence : SpeechRecognitionResult :=
  {| reason := NoMatch; text := "";
     no_match_details := "NoMatchReason.InitialSilenceTimeout";
     cancellation_details := no_details |}.

Definition dropped : SpeechRecognitionResult :=
  {| reason := Canceled; text := "";
     no_match_details := ""; cancellation_details := refused |}.

Definition odd : SpeechRecognitionResult :=
  {| reason := OtherReason 2; text := "hel";
     no_match_details := ""; cancellation_details := no_details |}.

Definition spoken : SpeechSynthesisResult :=
  {| s_reason := SynthesizingAudioCompleted; s_cancellation_details := no_details |}.

Definition unspoken : SpeechSynthesisResult :=
  {| s_reason := Canceled; s_cancellation_details := refused |}.

(** A turn in which every service is reachable and writes its file. *)
Definition turn (rec : outcome SpeechRecognitionResult) (chat : outcome string)
    (speak : outcome SpeechSynthesisResult) (ffplay remove : outcome unit)
    (line : outcome string) : World :=
  {| w_recognizer := Returns (); w_recognize := rec; w_chat := chat;
     w_synthesizer := Returns (); w_speak := speak; w_audio_written := true;
     w_ffplay := ffplay; w_remove := remove; w_input := line |}.

(** The scenario of the specification: "hello", "hi there", playback and
    removal succeed, the user presses Enter. *)
Definition hello : World :=
  turn (Returns (heard "hello")) (Returns "hi there") (Returns spoken)
    (Returns ()) (Returns ()) (Returns "").

Definition padded : World :=
  turn (Returns (heard " hello ")) (Returns "hi there") (Returns spoken)
    (Returns ()) (Returns ()) (Returns "").

Definition empty_text : World :=
  turn (Returns (heard "")) (Returns "hi there") (Returns spoken)
    (Returns ()) (Returns ()) (Returns "").

Definition no_match : World :=
  turn (Returns silence) (Returns "hi there") (Returns spoken)
    (Returns ()) (Returns ()) (Returns "").

Definition canceled : World :=
  turn (Returns dropped) (Returns "hi there") (Returns spoken)
    (Returns ()) (Returns ()) (Returns "").

Definition other_reason : World :=
  turn (Returns odd) (Returns "hi there") (Returns spoken)
    (Returns ()) (Returns ()) (Returns "").

(** The audio file is in use when [os.remove] is called. *)
Definition locked : World :=
  turn (Returns (heard "hello")) (Returns "hi there") (Returns spoken)
    (Returns ()) (Raises (Exn OSError "[WinError 32] file in use")) (Returns "").

(** The completion provider is unreachable. *)
Definition offline : World :=
  turn (Returns (heard "hello")) (Raises (Exn (OtherException "APIConnectionError") "Connection error."))
    (Returns spoken) (Returns ()) (Returns ()) (Returns "quit").

(** The synthesis is cancelled by an error. *)
Definition mute : World :=
  turn (Returns (heard "hello")) (Returns "hi there") (Returns unspoken)
    (Returns ()) (Returns ()) (Returns "").

Definition quitting : World :=
  turn (Returns (heard "hello")) (Returns "hi there") (Returns spoken)
    (Returns ()) (Returns ()) (Returns "  QuIt ").

End Sample.

Module Sdk.

Definition a_config : SpeechConfig :=
  {| cfg_truthy := true;
     speech_recognition_language := None;
     speech_synthesis_voice_name := None |}.

(** A constructor that refuses a missing subscription or region with a
    [ValueError]. *)
Definition strict (subscription region : option string) : outcome SpeechConfig :=
  match subscription, region with
  | Some _, Some _ => Returns a_config
  | _, _ =>
      Raises (Exn ValueError "cannot construct SpeechConfig with the given arguments")
  end.

(** A constructor that refuses them with a [TypeError]. *)
Definition typed (subscription region : option string) : outcome SpeechConfig :=
  match subscription, region with
  | Some _, Some _ => Returns a_config
  | _, _ => Raises (Exn TypeError "expected str, got NoneType")
  end.

(** Only the key of the completion provider is set. *)
Definition only_openai : gmap string string :=
  {[ "OPENAI_API_KEY" := "sk-test" ]}.


(** Every variable is set. *)
Definition complete : gmap string string :=
  {[ "OPENAI_API_KEY" := "sk-test"; "AZURE_TTS_KEY" := "k1";
     "AZURE_TTS2_KEY" := "k2"; "AZURE_TTS_REGION" := "eastus" ]}.

End Sdk.

(** * Part II: properties *)

(** ** Strings *)

Example strip_ex : PyStr.strip "  QuIt  " = "QuIt".
Proof. reflexivity. Qed.

Example lower_ex : PyStr.lower "QuIt 1" = "quit 1".
Proof. reflexivity. Qed.

Section PyStrFacts.

Import PyStr.

Lemma lstrip_split s : ∃ pre, s = pre +:+ lstrip s ∧ all_space pre = true.
Proof.
  induction s as [|c s (pre & Hs & Hpre)]; [by exists ""|].
  cbn [lstrip]. destruct (isspace c) eqn:Hc; [|by exists ""].
  exists (String c pre). split.
  - change (String c s = String c (pre +:+ lstrip s)). by f_equal.
  - cbn [all_space]. by rewrite Hc.
Qed.

Lemma rstrip_split s : ∃ post, s = rstrip s +:+ post ∧ all_space post = true.
Proof.
  induction s as [|c s (post & Hs & Hpost)]; [by exists ""|].
  cbn [rstrip]. destruct (rstrip s) as [|c' r] eqn:Hr.
  - destruct (isspace c) eqn:Hc.
    + exists (String c post). split; [by rewrite Hs at 1|].
      cbn [all_space]. by rewrite Hc.
    + exists post. split; [|done].
      change (String c s = String c ("" +:+ post)). by f_equal.
  - exists post. split; [|done].
    change (String c s = String c (String c' r +:+ post)). by f_equal.
Qed.

Lemma lstrip_app_space pre s :
  all_space pre = true → lstrip (pre +:+ s) = lstrip s.
Proof.
  induction pre as [|c pre IH]; [done|]. cbn [all_space].
  intros [Hc Hpre]%andb_true_iff.
  change (lstrip (String c (pre +:+ s)) = lstrip s).
  cbn [lstrip]. rewrite Hc. auto.
Qed.

Lemma rstrip_all_space post : all_space post = true → rstrip post = "".
Proof.
  induction post as [|c post IH]; [done|]. cbn [all_space rstrip].
  intros [Hc Hpost]%andb_true_iff. by rewrite IH, Hc.
Qed.

Lemma rstrip_app_space s post :
  all_space post = true → rstrip (s +:+ post) = rstrip s.
Proof.
  intros Hpost. induction s as [|c s IH]; [by apply rstrip_all_space|].
  change (rstrip (String c (s +:+ post)) = rstrip (String c s)).
  cbn [rstrip]. by rewrite IH.
Qed.

Ltac each_char c :=
  destruct c as [[] [] [] [] [] [] [] []]; vm_compute; intros Hc;
  first [by left | by right | discriminate Hc].

Lemma lower_char_q c : lower_char c = "q"%char → c = "q"%char ∨ c = "Q"%char.
Proof. each_char c. Qed.

Lemma lower_char_u c : lower_char c = "u"%char → c = "u"%char ∨ c = "U"%char.
Proof. each_char c. Qed.

Lemma lower_char_i c : lower_char c = "i"%char → c = "i"%char ∨ c = "I"%char.
Proof. each_char c. Qed.

Lemma lower_char_t c : lower_char c = "t"%char → c = "t"%char ∨ c = "T"%char.
Proof. each_char c. Qed.

Lemma lower_quit core : lower core = "quit" → spells_quit core.
Proof.
  destruct core as [|q [|u [|i [|t [|]]]]]; try done.
  cbn [lower]. intros [= Hq Hu Hi Ht].
  constructor; auto using lower_char_q, lower_char_u, lower_char_i, lower_char_t.
Qed.

Lemma spells_quit_fixed core :
  spells_quit core → lstrip core = core ∧ rstrip core = core ∧ lower core = "quit".
Proof.
  intros [q u i t [-> | ->] [-> | ->] [-> | ->] [-> | ->]]; by vm_compute.
Qed.

End PyStrFacts.

(** The test of the loop accepts exactly the lines that are the token
    "quit", in any case, between blanks. *)
Lemma is_quit_spec line : is_quit line = true ↔ quit_line line.
Proof.
  unfold is_quit, PyStr.strip. rewrite String.eqb_eq. split.
  - intros Hquit%lower_quit.
    destruct (lstrip_split line) as (pre & Hline & Hpre).
    destruct (rstrip_split (PyStr.lstrip line)) as (post & Hrest & Hpost).
    exists pre, (PyStr.rstrip (PyStr.lstrip line)), post.
    by rewrite <- Hrest, <- Hline.
  - intros (pre & core & post & -> & Hpre & Hpost & Hcore).
    destruct (spells_quit_fixed core Hcore) as (Hl & Hr & Hlow).
    rewrite (lstrip_app_space pre _ Hpre).
    assert (Hkeep : PyStr.lstrip (core +:+ post) = core +:+ post).
    { destruct Hcore as [q u i t Hq _ _ _].
      change (PyStr.lstrip (String q (String u (String i (String t post)))) =
              String q (String u (String i (String t post)))).
      cbn [PyStr.lstrip]. by destruct Hq as [-> | ->]. }
    by rewrite Hkeep, (rstrip_app_space core post Hpost), Hr.
Qed.

Example quit_examples :
  is_quit "quit" = true ∧ is_quit "  QuIt " = true ∧ is_quit "" = false
  ∧ is_quit "quit now" = false ∧ is_quit "q uit" = false ∧ is_quit "exit" = false.
Proof. repeat split. Qed.

(** ** Traces *)

Lemma never_app f (tr1 tr2 : Trace) :
  never f (tr1 ++ tr2) = never f tr1 && never f tr2.
Proof. apply forallb_app. Qed.

Lemma printed_app (tr1 tr2 : Trace) :
  printed (tr1 ++ tr2) = printed tr1 ++ printed tr2.
Proof. apply omap_app. Qed.

Lemma play_is_synthesis (tr : Trace) :
  never is_synthesis tr = true → never is_play tr = true.
Proof.
  unfold never. induction tr as [|ev tr IH]; [done|]. cbn [forallb].
  intros [Hev Htr]%andb_true_iff. apply andb_true_iff.
  split; [by destruct ev|auto].
Qed.

Ltac read_run :=
  unfold trace_of, files_of, result_of in *; cbn [fst snd] in *;
  rewrite ?never_app in *.

(** ** Running the program: one equation per function *)

Lemma speechtotext_from_mic_run w fs :
  speechtotext_from_mic w fs =
    match w_recognizer w with
    | Raises e => ([EvOpenRecognizer], fs, Raises e)
    | Returns _ =>
        match w_recognize w with
        | Raises e => (listening, fs, Raises e)
        | Returns r =>
            (listening ++ recognition_log r, fs,
             Returns match reason r with
                     | RecognizedSpeech => Some (text r)
                     | _ => None
                     end)
        end
    end.
Proof.
  unfold speechtotext_from_mic, recognition_log, bind, call, print, ret.
  destruct (w_recognizer w); [|done].
  destruct (w_recognize w) as [r|]; [|done].
  destruct (reason r); try done.
  destruct (cd_reason (cancellation_details r)); done.
Qed.

Lemma speechtotext_from_mic_quiet w fs :
  never is_completion (trace_of (speechtotext_from_mic w fs)) = true
  ∧ never is_synthesis (trace_of (speechtotext_from_mic w fs)) = true
  ∧ never is_input (trace_of (speechtotext_from_mic w fs)) = true.
Proof.
  rewrite speechtotext_from_mic_run. unfold recognition_log.
  destruct (w_recognizer w); [|done].
  destruct (w_recognize w) as [r|]; [|done].
  destruct (reason r); try done.
  by destruct (cd_reason (cancellation_details r)).
Qed.

Lemma play_audio_run file_path w fs :
  play_audio file_path w fs =
    ((EvPlay ["ffplay"; "-nodisp"; "-autoexit"; file_path] :: playback_log w)
       ++ (if bool_decide (file_path ∈ fs) then [EvRemove file_path] else []),
     if bool_decide (file_path ∈ fs)
     then match w_remove w with
          | Returns _ => fs ∖ {[file_path]}
          | Raises _ => fs
          end
     else fs,
     Returns ()).
Proof.
  unfold play_audio, try_finally, try_except, run_ffplay, call, bind, isfile,
    os_remove, print, ret, playback_log.
  destruct (w_ffplay w) as [[]|e]; cbn;
    destruct (bool_decide (file_path ∈ fs)); cbn; try done;
    destruct (w_remove w) as [[]|e']; done.
Qed.

Lemma text_to_speech_run text w fs :
  text_to_speech text w fs =
    match w_synthesizer w with
    | Raises e => ([EvOpenSynthesizer "output.wav"], fs, Raises e)
    | Returns _ =>
        match w_speak w with
        | Raises e => (synthesizing text, written w fs, Raises e)
        | Returns result =>
            match s_reason result with
            | SynthesizingAudioCompleted =>
                match play_audio "output.wav" w (written w fs) with
                | (tr, fs', r) =>
                    (synthesizing text ++ EvPrint "Speech synthesis completed." :: tr,
                     fs', r)
                end
            | Canceled =>
                (synthesizing text
                   ++ EvPrint "Speech synthesis canceled: {cancellation_details.reason}"
                   :: match cd_reason (s_cancellation_details result) with
                      | Error =>
                          [EvPrint ("Error details: "
                                    +:+ error_details (s_cancellation_details result))]
                      | _ => []
                      end,
                 written w fs, Returns ())
            | _ => (synthesizing text, written w fs, Returns ())
            end
        end
    end.
Proof.
  unfold text_to_speech, bind, call, speak_text, print, ret, written.
  destruct (w_synthesizer w) as [[]|e]; [|done].
  destruct (w_speak w) as [result|e]; [|done].
  destruct (s_reason result); try done.
  - destruct (cd_reason (s_cancellation_details result)); done.
  - cbn. by destruct (play_audio _ _ _) as [[tr fs'] r].
Qed.

Lemma respond_run w fs :
  respond w fs =
    match speechtotext_from_mic w fs with
    | (tr, fs', Returns speech_text) =>
        if truthy speech_text then
          let said := default "" speech_text in
          match w_chat w with
          | Returns content =>
              match text_to_speech (PyStr.strip content) w fs' with
              | (tr', fs'', r) =>
                  (tr ++ [EvPrint (PyStr.nl +:+ "User: " +:+ said);
                          EvChatCompletion "gpt-4o-mini" said;
                          EvPrint ("Bot: " +:+ PyStr.strip content)] ++ tr',
                   fs'', r)
              end
          | Raises e =>
              (tr ++ [EvPrint (PyStr.nl +:+ "User: " +:+ said);
                      EvChatCompletion "gpt-4o-mini" said], fs', Raises e)
          end
        else (tr ++ [EvPrint retry_notice], fs', Returns ())
    | (tr, fs', Raises e) => (tr, fs', Raises e)
    end.
Proof.
  unfold respond. generalize text_to_speech as speak. intros speak.
  unfold bind at 1.
  destruct (speechtotext_from_mic w fs) as [[tr fs'] [speech_text|e]]; [|done].
  destruct (truthy speech_text); [|done].
  unfold bind, chat_gpt, call, print, ret. cbn.
  destruct (w_chat w) as [content|e]; [|done]. cbn.
  by destruct (speak _ _ _) as [[tr' fs''] r].
Qed.

(** When transcription gives nothing usable, the turn prints the notice
    and calls no other service. *)
Lemma respond_no_text w fs tr fs' speech_text :
  speechtotext_from_mic w fs = (tr, fs', Returns speech_text) →
  truthy speech_text = false →
  respond w fs = (tr ++ [EvPrint retry_notice], fs', Returns ()).
Proof.
  intros Hrun Hfalsy. unfold respond, bind. rewrite Hrun, Hfalsy. reflexivity.
Qed.

Lemma ask_exit_run w fs :
  ask_exit w fs =
    match w_input w with
    | Returns line =>
        if is_quit line then ([EvInput exit_prompt], fs, Returns Break)
        else ([EvInput exit_prompt; EvSleep 1], fs, Returns Continue)
    | Raises e => ([EvInput exit_prompt], fs, Raises e)
    end.
Proof.
  unfold ask_exit, bind, input, call.
  destruct (w_input w) as [line|]; [|done]. by destruct (is_quit line).
Qed.

Lemma iteration_run w fs :
  iteration w fs =
    match respond w fs with
    | (tr, fs', Returns _) =>
        match w_input w with
        | Returns line =>
            if is_quit line then (tr ++ [EvInput exit_prompt], fs', Returns Break)
            else (tr ++ [EvInput exit_prompt; EvSleep 1], fs', Returns Continue)
        | Raises e =>
            ((tr ++ [EvInput exit_prompt]) ++ guard_log e, fs', Returns Continue)
        end
    | (tr, fs', Raises e) => (tr ++ guard_log e, fs', Returns Continue)
    end.
Proof.
  unfold iteration, try_except, loop_body, bind.
  destruct (respond w fs) as [[tr fs'] [[]|e]]; [|done].
  rewrite ask_exit_run.
  destruct (w_input w) as [line|e]; [|done]. by destruct (is_quit line).
Qed.

Lemma main_loop_step w turns fs :
  main_loop (w :: turns) fs =
    match iteration w fs with
    | (tr, fs', Returns Break) => (tr, fs', TERMINATED)
    | (tr, fs', Returns Continue) =>
        match main_loop turns fs' with
        | (tr', fs'', st) => (tr ++ tr', fs'', st)
        end
    | (tr, fs', Raises e) => (tr, fs', CRASHED e)
    end.
Proof. reflexivity. Qed.

(** ** The scenarios of the specification *)

(** "hello" is heard, "hi there" is the reply, synthesis succeeds, the
    player exits with 0, the file is removed, and the loop prompts. *)
Example scenario_hello :
  trace_of (iteration Sample.hello ∅) =
    [EvOpenRecognizer; EvPrint "Speak into your microphone..."; EvRecognize;
     EvPrint (PyStr.nl +:+ "User: hello");
     EvChatCompletion "gpt-4o-mini" "hello";
     EvPrint "Bot: hi there";
     EvOpenSynthesizer "output.wav"; EvSynthesize "hi there";
     EvPrint "Speech synthesis completed.";
     EvPlay ["ffplay"; "-nodisp"; "-autoexit"; "output.wav"];
     EvRemove "output.wav";
     EvInput exit_prompt; EvSleep 1]
  ∧ bool_decide ("output.wav" ∈ files_of (iteration Sample.hello ∅)) = false.
Proof. split; [reflexivity|by vm_compute]. Qed.

(** Nothing is recognised: the notice, no completion, no synthesis, and
    the prompt. *)
Example scenario_no_match :
  trace_of (iteration Sample.no_match ∅) =
    [EvOpenRecognizer; EvPrint "Speak into your microphone..."; EvRecognize;
     EvPrint "No speech could be recognized: NoMatchReason.InitialSilenceTimeout";
     EvPrint "Retrying...";
     EvPrint retry_notice;
     EvInput exit_prompt; EvSleep 1].
Proof. reflexivity. Qed.

(** The synthesis is cancelled: no playback, and the loop goes on. *)
Example scenario_cancelled_synthesis :
  trace_of (iteration Sample.mute ∅) =
    [EvOpenRecognizer; EvPrint "Speak into your microphone..."; EvRecognize;
     EvPrint (PyStr.nl +:+ "User: hello");
     EvChatCompletion "gpt-4o-mini" "hello";
     EvPrint "Bot: hi there";
     EvOpenSynthesizer "output.wav"; EvSynthesize "hi there";
     EvPrint "Speech synthesis canceled: {cancellation_details.reason}";
     EvPrint "Error details: Connection failed";
     EvInput exit_prompt; EvSleep 1]
  ∧ result_of (iteration Sample.mute ∅) = Returns Continue.
Proof. split; reflexivity. Qed.

(** ** Transcription *)

(** C5, as the specification has it, fails: the text " hello " is
    returned with its blanks, and its trimmed form is another string. *)
Lemma recognized_text_not_trimmed :
  result_of (speechtotext_from_mic Sample.padded ∅) = Returns (Some " hello ")
  ∧ PyStr.strip " hello " = "hello"
  ∧ String.eqb " hello " (PyStr.strip " hello ") = false.
Proof. repeat split. Qed.

(** C5, amended. On recognized speech, [speechtotext_from_mic] returns the
    text of the result as the recogniser gave it. *)
Theorem recognized_text_returned w fs r :
  w_recognizer w = Returns () →
  w_recognize w = Returns r →
  reason r = RecognizedSpeech →
  result_of (speechtotext_from_mic w fs) = Returns (Some (text r)).
Proof.
  intros Hmic Hrec Hreason.
  rewrite speechtotext_from_mic_run, Hmic, Hrec, Hreason. reflexivity.
Qed.

Lemma recognized_text_returned_witness :
  result_of (speechtotext_from_mic Sample.padded ∅) = Returns (Some " hello ").
Proof.
  apply (recognized_text_returned Sample.padded ∅ (Sample.heard " hello "));
    reflexivity.
Defined.

(** C10. For a recognition result whose reason is not [RecognizedSpeech]
    (no match, cancellation, or any other reason), [speechtotext_from_mic]
    returns [None]: it neither raises nor returns text. *)
Theorem unrecognized_returns_none w fs r :
  w_recognizer w = Returns () →
  w_recognize w = Returns r →
  reason r ≠ RecognizedSpeech →
  result_of (speechtotext_from_mic w fs) = Returns None.
Proof.
  intros Hmic Hrec Hreason.
  rewrite speechtotext_from_mic_run, Hmic, Hrec.
  unfold result_of; cbn [snd]. by destruct (reason r).
Qed.

Lemma unrecognized_returns_none_witness :
  result_of (speechtotext_from_mic Sample.no_match ∅) = Returns None
  ∧ result_of (speechtotext_from_mic Sample.canceled ∅) = Returns None
  ∧ result_of (speechtotext_from_mic Sample.other_reason ∅) = Returns None.
Proof.
  split; [|split].
  - apply (unrecognized_returns_none Sample.no_match ∅ Sample.silence);
      [reflexivity|reflexivity|discriminate].
  - apply (unrecognized_returns_none Sample.canceled ∅ Sample.dropped);
      [reflexivity|reflexivity|discriminate].
  - apply (unrecognized_returns_none Sample.other_reason ∅ Sample.odd);
      [reflexivity|reflexivity|discriminate].
Defined.

(** ** Turns without an utterance *)

Lemma skipped_turn w fs tr fs' speech_text :
  speechtotext_from_mic w fs = (tr, fs', Returns speech_text) →
  truthy speech_text = false →
  never is_completion (trace_of (iteration w fs)) = true
  ∧ never is_synthesis (trace_of (iteration w fs)) = true
  ∧ retry_notice ∈ printed (trace_of (iteration w fs)).
Proof.
  intros Hrun Hfalsy.
  destruct (speechtotext_from_mic_quiet w fs) as (Hc & Hs & _).
  rewrite Hrun in Hc, Hs. unfold trace_of in Hc, Hs; cbn [fst] in Hc, Hs.
  rewrite iteration_run, (respond_no_text _ _ _ _ _ Hrun Hfalsy).
  assert (Hin : retry_notice ∈ printed (tr ++ [EvPrint retry_notice])).
  { rewrite printed_app. apply elem_of_app. right. cbn. apply list_elem_of_here. }
  destruct (w_input w) as [line|e]; [destruct (is_quit line)|];
    unfold trace_of; cbn [fst];
    rewrite ?never_app, ?printed_app, ?Hc, ?Hs;
    (split; [done|split; [done|]]);
    rewrite ?printed_app in Hin |- *; set_solver.
Qed.

(** C1. In a turn whose transcription returns [None], neither [chat_gpt]
    nor [text_to_speech] is called and the retry notice is printed. *)
Theorem no_utterance_skips_services w fs :
  result_of (speechtotext_from_mic w fs) = Returns None →
  never is_completion (trace_of (iteration w fs)) = true
  ∧ never is_synthesis (trace_of (iteration w fs)) = true
  ∧ retry_notice ∈ printed (trace_of (iteration w fs)).
Proof.
  destruct (speechtotext_from_mic w fs) as [[tr fs'] r] eqn:Hrun.
  unfold result_of; cbn [snd]. intros ->.
  by apply (skipped_turn w fs tr fs' None).
Qed.

Lemma no_utterance_skips_services_witness :
  result_of (speechtotext_from_mic Sample.no_match ∅) = Returns None
  ∧ never is_completion (trace_of (iteration Sample.no_match ∅)) = true
  ∧ never is_synthesis (trace_of (iteration Sample.no_match ∅)) = true
  ∧ retry_notice ∈ printed (trace_of (iteration Sample.no_match ∅)).
Proof.
  split; [reflexivity|].
  apply (no_utterance_skips_services Sample.no_match ∅). reflexivity.
Defined.

(** C9. In a turn whose transcription returns the empty string, the loop
    does what it does for [None]: no completion, no synthesis, and the
    retry notice. *)
Theorem empty_text_skips_services w fs :
  result_of (speechtotext_from_mic w fs) = Returns (Some "") →
  never is_completion (trace_of (iteration w fs)) = true
  ∧ never is_synthesis (trace_of (iteration w fs)) = true
  ∧ retry_notice ∈ printed (trace_of (iteration w fs)).
Proof.
  destruct (speechtotext_from_mic w fs) as [[tr fs'] r] eqn:Hrun.
  unfold result_of; cbn [snd]. intros ->.
  by apply (skipped_turn w fs tr fs' (Some "")).
Qed.

Lemma empty_text_skips_services_witness :
  result_of (speechtotext_from_mic Sample.empty_text ∅) = Returns (Some "")
  ∧ never is_completion (trace_of (iteration Sample.empty_text ∅)) = true
  ∧ never is_synthesis (trace_of (iteration Sample.empty_text ∅)) = true
  ∧ retry_notice ∈ printed (trace_of (iteration Sample.empty_text ∅)).
Proof.
  split; [reflexivity|].
  apply (empty_text_skips_services Sample.empty_text ∅). reflexivity.
Defined.

(** ** Synthesis and playback *)

Lemma text_to_speech_leftover text w fs :
  never is_play (trace_of (text_to_speech text w fs)) = false →
  "output.wav" ∈ files_of (text_to_speech text w fs) →
  ∃ e, w_remove w = Raises e.
Proof.
  rewrite text_to_speech_run.
  destruct (w_synthesizer w) as [[]|e]; [|done].
  destruct (w_speak w) as [result|e]; [|done].
  destruct (s_reason result); try done.
  - by destruct (cd_reason (s_cancellation_details result)).
  - rewrite play_audio_run. unfold files_of; cbn [fst snd]. intros _.
    case_bool_decide as Hin; [|done].
    destruct (w_remove w) as [[]|e]; [|eauto].
    intros [_ []]%elem_of_difference. by apply elem_of_singleton.
Qed.

Lemma turn_leftover w fs :
  never is_play (trace_of (iteration w fs)) = false →
  "output.wav" ∈ files_of (iteration w fs) →
  ∃ e, w_remove w = Raises e.
Proof.
  rewrite iteration_run, respond_run.
  destruct (speechtotext_from_mic_quiet w fs) as (_ & Hp%play_is_synthesis & _).
  destruct (speechtotext_from_mic w fs) as [[tr fs'] [speech_text|e]];
    [|read_run; by rewrite Hp].
  destruct (truthy speech_text).
  - cbn zeta. destruct (w_chat w) as [content|e].
    + pose proof (text_to_speech_leftover (PyStr.strip content) w fs') as Hleft.
      destruct (text_to_speech _ w fs') as [[tr' fs''] r].
      destruct r as [[]|e]; [destruct (w_input w) as [line|e]; [destruct (is_quit line)|]|];
        read_run; rewrite Hp; cbn [andb]; simpl;
        rewrite ?andb_true_r; exact Hleft.
    + read_run. by rewrite Hp.
  - destruct (w_input w) as [line|e]; [destruct (is_quit line)|];
      read_run; by rewrite Hp.
Qed.

(** C3, as the specification has it, fails: when [os.remove] raises
    because the file is in use, the exception is swallowed, the turn
    completes, and the audio file is still there. *)
Lemma locked_file_stays :
  trace_of (iteration Sample.locked ∅) =
    [EvOpenRecognizer; EvPrint "Speak into your microphone..."; EvRecognize;
     EvPrint (PyStr.nl +:+ "User: hello");
     EvChatCompletion "gpt-4o-mini" "hello";
     EvPrint "Bot: hi there";
     EvOpenSynthesizer "output.wav"; EvSynthesize "hi there";
     EvPrint "Speech synthesis completed.";
     EvPlay ["ffplay"; "-nodisp"; "-autoexit"; "output.wav"];
     EvRemove "output.wav";
     EvInput exit_prompt; EvSleep 1]
  ∧ result_of (iteration Sample.locked ∅) = Returns Continue
  ∧ bool_decide ("output.wav" ∈ files_of (iteration Sample.locked ∅)) = true.
Proof. split; [reflexivity|]. split; [reflexivity|]. by vm_compute. Qed.

(** C3, amended.  Whether the player succeeds or fails, [play_audio]
    returns normally; the deletion is attempted once, after the player,
    when the file exists; a failure of the deletion prints nothing and
    raises nothing; the file exists afterwards only if it existed and
    [os.remove] raised.  In a turn that attempted playback the audio file
    is left behind only if [os.remove] raised. *)
Theorem play_audio_cleanup file_path w fs :
  result_of (play_audio file_path w fs) = Returns ()
  ∧ trace_of (play_audio file_path w fs) =
      (EvPlay ["ffplay"; "-nodisp"; "-autoexit"; file_path] :: playback_log w)
        ++ (if bool_decide (file_path ∈ fs) then [EvRemove file_path] else [])
  ∧ (file_path ∈ files_of (play_audio file_path w fs)
     ↔ file_path ∈ fs ∧ ∃ e, w_remove w = Raises e)
  ∧ (∀ fs0, never is_play (trace_of (iteration w fs0)) = false →
            "output.wav" ∈ files_of (iteration w fs0) →
            ∃ e, w_remove w = Raises e).
Proof.
  rewrite play_audio_run. read_run.
  split; [done|]. split; [done|]. split; [|apply turn_leftover].
  case_bool_decide as Hin.
  - destruct (w_remove w) as [[]|e].
    + split; [|by intros (_ & e & [=])].
      intros [_ []]%elem_of_difference. by apply elem_of_singleton.
    + split; eauto.
  - split; [done|by intros [? _]].
Qed.

(** C7.  On a cancelled synthesis the reason is to be logged.  The line
    of the source lacks the [f] prefix: what is printed is the
    template itself, braces included, whatever the reason is, and the
    name of the reason does not occur in it.  The error details are
    printed when the reason is [Error], and playback is not attempted. *)
Theorem synthesis_cancel_log text w fs result :
  w_synthesizer w = Returns () →
  w_speak w = Returns result →
  s_reason result = Canceled →
  printed (trace_of (text_to_speech text w fs)) =
    "Speech synthesis canceled: {cancellation_details.reason}"
    :: match cd_reason (s_cancellation_details result) with
       | Error => ["Error details: " +:+ error_details (s_cancellation_details result)]
       | _ => []
       end
  ∧ PyStr.contains
      (str_CancellationReason (cd_reason (s_cancellation_details result)))
      "Speech synthesis canceled: {cancellation_details.reason}" = false
  ∧ never is_play (trace_of (text_to_speech text w fs)) = true.
Proof.
  intros Hopen Hspeak Hreason.
  rewrite text_to_speech_run, Hopen, Hspeak, Hreason. read_run.
  by destruct (cd_reason (s_cancellation_details result)).
Qed.

Lemma synthesis_cancel_log_witness :
  printed (trace_of (text_to_speech "hi there" Sample.mute ∅)) =
    ["Speech synthesis canceled: {cancellation_details.reason}";
     "Error details: Connection failed"]
  ∧ PyStr.contains "CancellationReason.Error"
      "Speech synthesis canceled: {cancellation_details.reason}" = false
  ∧ never is_play (trace_of (text_to_speech "hi there" Sample.mute ∅)) = true.
Proof.
  apply (synthesis_cancel_log "hi there" Sample.mute ∅ Sample.unspoken);
    reflexivity.
Defined.

(** ** The loop *)

Lemma iteration_returns w fs :
  ∃ control, result_of (iteration w fs) = Returns control.
Proof.
  rewrite iteration_run.
  destruct (respond w fs) as [[tr fs'] [[]|e]]; [|by eexists].
  destruct (w_input w) as [line|e]; [|by eexists].
  destruct (is_quit line); by eexists.
Qed.

Lemma main_loop_never_crashes turns fs e :
  result_of (main_loop turns fs) ≠ CRASHED e.
Proof.
  revert fs. induction turns as [|w turns IH]; intros fs; [done|].
  rewrite main_loop_step.
  destruct (iteration_returns w fs) as [control Hret].
  destruct (iteration w fs) as [[tr fs'] r]. read_run. subst r.
  destruct control; [done|].
  specialize (IH fs'). by destruct (main_loop turns fs') as [[tr' fs''] st].
Qed.

Lemma break_needs_quit w fs :
  result_of (iteration w fs) = Returns Break →
  ∃ line, w_input w = Returns line ∧ is_quit line = true.
Proof.
  rewrite iteration_run.
  destruct (respond w fs) as [[tr fs'] [[]|e]]; [|done].
  destruct (w_input w) as [line|e]; [|done].
  destruct (is_quit line) eqn:Hquit; [eauto|done].
Qed.

Lemma main_loop_terminated turns fs :
  result_of (main_loop turns fs) = TERMINATED →
  ∃ w line, w ∈ turns ∧ w_input w = Returns line ∧ is_quit line = true.
Proof.
  revert fs. induction turns as [|w turns IH]; intros fs; [done|].
  rewrite main_loop_step.
  pose proof (break_needs_quit w fs) as Hbreak.
  destruct (iteration w fs) as [[tr fs'] [[]|e]]; read_run.
  - intros _. destruct Hbreak as (line & ? & ?); [done|].
    exists w, line. split; [apply list_elem_of_here|done].
  - specialize (IH fs'). destruct (main_loop turns fs') as [[tr' fs''] st].
    intros Hst. destruct (IH Hst) as (w' & line & ? & ? & ?).
    exists w', line. split; [by apply list_elem_of_further|done].
  - done.
Qed.

Lemma text_to_speech_no_input text w fs :
  never is_input (trace_of (text_to_speech text w fs)) = true.
Proof.
  rewrite text_to_speech_run.
  destruct (w_synthesizer w) as [[]|e]; [|done].
  destruct (w_speak w) as [result|e]; [|done].
  destruct (s_reason result); try done.
  - by destruct (cd_reason (s_cancellation_details result)).
  - rewrite play_audio_run. read_run. unfold playback_log.
    destruct (w_ffplay w); by case_bool_decide.
Qed.

Lemma respond_no_input w fs :
  never is_input (trace_of (respond w fs)) = true.
Proof.
  rewrite respond_run.
  destruct (speechtotext_from_mic_quiet w fs) as (_ & _ & Hi).
  destruct (speechtotext_from_mic w fs) as [[tr fs'] [speech_text|e]]; [|done].
  destruct (truthy speech_text); [|read_run; by rewrite Hi].
  cbn zeta. destruct (w_chat w) as [content|e]; [|read_run; by rewrite Hi].
  pose proof (text_to_speech_no_input (PyStr.strip content) w fs') as Hs.
  destruct (text_to_speech _ w fs') as [[tr' fs''] r].
  read_run. by rewrite Hi, Hs.
Qed.

(** Where an exception of a service goes: out of the [try] block. *)
Lemma loop_body_raises w fs tr fs' e :
  respond w fs = (tr, fs', Raises e) →
  loop_body w fs = (tr, fs', Raises e).
Proof. intros Hrun. unfold loop_body, bind. by rewrite Hrun. Qed.

(** Which failures of the services leave the [try] block: a recogniser
    that cannot be opened or does not answer, a completion that raises
    once there is text, a synthesizer that cannot be opened or does not
    answer.  A failure of the player does not: [play_audio] catches it. *)
Lemma service_failures w fs e :
  (w_recognizer w = Raises e → result_of (loop_body w fs) = Raises e)
  ∧ (w_recognizer w = Returns () → w_recognize w = Raises e →
     result_of (loop_body w fs) = Raises e)
  ∧ (∀ speech_text,
       result_of (speechtotext_from_mic w fs) = Returns speech_text →
       truthy speech_text = true →
       (w_chat w = Raises e → result_of (loop_body w fs) = Raises e)
       ∧ (∀ content, w_chat w = Returns content →
            (w_synthesizer w = Raises e → result_of (loop_body w fs) = Raises e)
            ∧ (w_synthesizer w = Returns () → w_speak w = Raises e →
               result_of (loop_body w fs) = Raises e))).
Proof.
  unfold loop_body, bind. rewrite respond_run.
  split; [|split].
  - intros Hopen. by rewrite speechtotext_from_mic_run, Hopen.
  - intros Hopen Hrec. by rewrite speechtotext_from_mic_run, Hopen, Hrec.
  - intros speech_text.
    destruct (speechtotext_from_mic w fs) as [[tr fs'] r]. read_run.
    intros -> ->. cbn zeta. split.
    + by intros ->.
    + intros content ->. rewrite text_to_speech_run. split.
      * by intros ->.
      * by intros -> ->.
Qed.

(** C4.  An exception that leaves the [try] block of a turn (raised by
    transcription, completion, synthesis or playback) is caught by the
    guard of the loop: its message is printed, the loop sleeps and goes on
    with the next turn.  The loop never ends by an exception, and it ends
    only in a turn whose input line is the quit token. *)
Theorem loop_guard_catches w fs tr fs' e turns :
  loop_body w fs = (tr, fs', Raises e) →
  iteration w fs =
    (tr ++ [EvPrint ("An error occurred: " +:+ exn_msg e); EvSleep 1],
     fs', Returns Continue)
  ∧ trace_of (main_loop (w :: turns) fs) =
      (tr ++ [EvPrint ("An error occurred: " +:+ exn_msg e); EvSleep 1])
        ++ trace_of (main_loop turns fs')
  ∧ result_of (main_loop (w :: turns) fs) = result_of (main_loop turns fs')
  ∧ (∀ e', result_of (main_loop (w :: turns) fs) ≠ CRASHED e')
  ∧ (result_of (main_loop (w :: turns) fs) = TERMINATED →
     ∃ w' line, w' ∈ turns ∧ w_input w' = Returns line ∧ is_quit line = true).
Proof.
  intros Hraise.
  assert (Hit : iteration w fs = (tr ++ guard_log e, fs', Returns Continue)).
  { unfold iteration, try_except. by rewrite Hraise. }
  split; [exact Hit|].
  assert (Hres : result_of (main_loop (w :: turns) fs)
                 = result_of (main_loop turns fs')).
  { rewrite main_loop_step, Hit. by destruct (main_loop turns fs') as [[] ?]. }
  split; [|split; [exact Hres|split]].
  - rewrite main_loop_step, Hit. by destruct (main_loop turns fs') as [[] ?].
  - intros e'. apply main_loop_never_crashes.
  - rewrite Hres. apply main_loop_terminated.
Qed.

Lemma loop_guard_catches_witness :
  iteration Sample.offline ∅ =
    ([EvOpenRecognizer; EvPrint "Speak into your microphone..."; EvRecognize;
      EvPrint (PyStr.nl +:+ "User: hello");
      EvChatCompletion "gpt-4o-mini" "hello"]
       ++ [EvPrint "An error occurred: Connection error."; EvSleep 1],
     ∅, Returns Continue)
  ∧ result_of (main_loop [Sample.offline; Sample.quitting] ∅) = TERMINATED.
Proof.
  pose proof (loop_guard_catches Sample.offline ∅
    [EvOpenRecognizer; EvPrint "Speak into your microphone..."; EvRecognize;
     EvPrint (PyStr.nl +:+ "User: hello");
     EvChatCompletion "gpt-4o-mini" "hello"]
    ∅ (Exn (OtherException "APIConnectionError") "Connection error.")
    [Sample.quitting] eq_refl) as (Hit & _ & Hres & _).
  split; [exact Hit|]. rewrite Hres. reflexivity.
Defined.

(** C6, as the specification has it, fails: when the completion raises,
    the guard logs the error and the next iteration begins without any
    prompt, although the user would have typed "quit". *)
Lemma no_prompt_after_failed_turn :
  w_input Sample.offline = Returns "quit"
  ∧ iteration Sample.offline ∅ =
      ([EvOpenRecognizer; EvPrint "Speak into your microphone..."; EvRecognize;
        EvPrint (PyStr.nl +:+ "User: hello");
        EvChatCompletion "gpt-4o-mini" "hello";
        EvPrint "An error occurred: Connection error."; EvSleep 1],
       ∅, Returns Continue)
  ∧ trace_of (main_loop [Sample.offline; Sample.offline] ∅) =
      trace_of (iteration Sample.offline ∅) ++ trace_of (iteration Sample.offline ∅)
  ∧ never is_input (trace_of (main_loop [Sample.offline; Sample.offline] ∅)) = true
  ∧ result_of (main_loop [Sample.offline; Sample.offline] ∅) = RUNNING.
Proof. repeat split. Qed.

(** C6, amended.  After every iteration in which no exception reaches
    the guard of the loop (the turn succeeded, or there was no utterance,
    or the synthesis was cancelled, or a playback failure was caught where
    it happened), the user is prompted once, after the services and before
    the next iteration; entering the exit keyword ends the loop. *)
Theorem prompt_after_completed_turn w fs tr fs' turns :
  respond w fs = (tr, fs', Returns ()) →
  never is_input tr = true
  ∧ (∃ after, trace_of (iteration w fs) = tr ++ EvInput exit_prompt :: after
              ∧ never is_input after = true)
  ∧ (∀ line, w_input w = Returns line → is_quit line = true →
             main_loop (w :: turns) fs = (tr ++ [EvInput exit_prompt], fs', TERMINATED)).
Proof.
  intros Hrun. pose proof (respond_no_input w fs) as Hquiet.
  rewrite Hrun in Hquiet. read_run. split; [done|]. split.
  - rewrite iteration_run, Hrun.
    destruct (w_input w) as [line|e]; [destruct (is_quit line)|]; cbn [fst].
    + by exists [].
    + by exists [EvSleep 1].
    + exists (guard_log e). by rewrite <- app_assoc.
  - intros line Hline Hquit.
    by rewrite main_loop_step, iteration_run, Hrun, Hline, Hquit.
Qed.

Lemma prompt_after_completed_turn_witness :
  never is_input (trace_of (respond Sample.no_match ∅)) = true
  ∧ (∃ after, trace_of (iteration Sample.no_match ∅) =
                trace_of (respond Sample.no_match ∅) ++ EvInput exit_prompt :: after
              ∧ never is_input after = true)
  ∧ (∀ line, w_input Sample.no_match = Returns line → is_quit line = true →
             main_loop [Sample.no_match] ∅ =
               (trace_of (respond Sample.no_match ∅) ++ [EvInput exit_prompt],
                ∅, TERMINATED)).
Proof.
  apply (prompt_after_completed_turn Sample.no_match ∅
           (trace_of (respond Sample.no_match ∅)) ∅ []).
  reflexivity.
Defined.

(** C2.  For a line read at the prompt of a turn, the loop ends if and
    only if the line, stripped and lowercased, is "quit", that is if and
    only if it is the token "quit" in any case between blanks; any other
    line, the empty one included, keeps the loop running. *)
Theorem quit_token_ends_loop w fs tr fs' line turns :
  respond w fs = (tr, fs', Returns ()) →
  w_input w = Returns line →
  (result_of (iteration w fs) = Returns Break
   ↔ PyStr.lower (PyStr.strip line) = "quit")
  ∧ (PyStr.lower (PyStr.strip line) = "quit" ↔ quit_line line)
  ∧ (PyStr.lower (PyStr.strip line) = "quit" →
     main_loop (w :: turns) fs = (tr ++ [EvInput exit_prompt], fs', TERMINATED))
  ∧ (PyStr.lower (PyStr.strip line) ≠ "quit" →
     result_of (iteration w fs) = Returns Continue
     ∧ trace_of (main_loop (w :: turns) fs) =
         (tr ++ [EvInput exit_prompt; EvSleep 1]) ++ trace_of (main_loop turns fs')
     ∧ result_of (main_loop (w :: turns) fs) = result_of (main_loop turns fs')).
Proof.
  intros Hrun Hline.
  assert (Hspec : PyStr.lower (PyStr.strip line) = "quit" ↔ quit_line line).
  { rewrite <- is_quit_spec. unfold is_quit. by rewrite String.eqb_eq. }
  rewrite main_loop_step, iteration_run, Hrun, Hline. unfold is_quit.
  destruct (String.eqb_spec (PyStr.lower (PyStr.strip line)) "quit") as [Heq|Hne].
  - split; [done|]. split; [exact Hspec|]. split; [done|]. by intros [].
  - split; [split; [done|by intros ?]|]. split; [exact Hspec|].
    split; [by intros ?|].
    intros _. by destruct (main_loop turns fs') as [[tr' fs''] st].
Qed.

Lemma quit_token_ends_loop_witness :
  (result_of (iteration Sample.quitting ∅) = Returns Break
   ↔ PyStr.lower (PyStr.strip "  QuIt ") = "quit")
  ∧ quit_line "  QuIt "
  ∧ result_of (main_loop [Sample.quitting; Sample.hello] ∅) = TERMINATED
  ∧ result_of (iteration Sample.hello ∅) = Returns Continue.
Proof.
  destruct (quit_token_ends_loop Sample.quitting ∅
              (trace_of (respond Sample.quitting ∅))
              (files_of (respond Sample.quitting ∅)) "  QuIt " [Sample.hello])
    as (Hiff & Hspec & Hquit & _); [by vm_compute|reflexivity|].
  destruct (quit_token_ends_loop Sample.hello ∅
              (trace_of (respond Sample.hello ∅))
              (files_of (respond Sample.hello ∅)) "" [])
    as (_ & _ & _ & Hgo); [by vm_compute|reflexivity|].
  split; [exact Hiff|]. split; [by apply Hspec|]. split.
  - rewrite (Hquit eq_refl). reflexivity.
  - apply Hgo. discriminate.
Defined.

(** ** The start of the process *)

Lemma startup_ok environ new_SpeechConfig api_key stt tts :
  startup environ new_SpeechConfig = Ok (api_key, stt, tts) →
  truthy (environ !! "OPENAI_API_KEY") = true
  ∧ (∃ c, new_SpeechConfig (environ !! "AZURE_TTS_KEY") (environ !! "AZURE_TTS_REGION")
          = Returns c ∧ cfg_truthy c = true)
  ∧ (∃ c, new_SpeechConfig (environ !! "AZURE_TTS2_KEY") (environ !! "AZURE_TTS_REGION")
          = Returns c ∧ cfg_truthy c = true).
Proof.
  unfold startup, load_api_key, SpeechToTextManager_init,
    TextToSpeechManager_init, getenv.
  destruct (truthy (environ !! "OPENAI_API_KEY")); [|done]. cbn [negb].
  destruct (new_SpeechConfig (environ !! "AZURE_TTS_KEY") _) as [c1|e1];
    [|by destruct (exn_class e1)].
  destruct (cfg_truthy c1) eqn:Hc1; [|done]. cbn [negb].
  destruct (new_SpeechConfig (environ !! "AZURE_TTS2_KEY") _) as [c2|e2];
    [|by destruct (exn_class e2)].
  destruct (cfg_truthy c2) eqn:Hc2; [|done]. eauto 10.
Qed.




Example startup_examples :
  program ∅ Sdk.strict [Sample.hello] ∅ = ([], ∅, Exited openai_missing)
  ∧ program Sdk.only_openai Sdk.typed [Sample.hello] ∅ = ([], ∅, Exited azure_stt_missing)
  ∧ result_of (program Sdk.complete Sdk.strict [Sample.quitting] ∅) = InLoop TERMINATED.
Proof. repeat split. Qed.

(** * Part III: further properties of the code *)

Section StripFacts.
Import PyStr PyTrim.

Lemma lstrip_starts s : starts_space (lstrip s) = false.
Proof.
  induction s as [|c s IH]; [done|]. cbn [lstrip].
  destruct (isspace c) eqn:Hc; [done|]. cbn [starts_space]. exact Hc.
Qed.

Lemma rstrip_ends s : ends_space (rstrip s) = false.
Proof.
  induction s as [|c s IH]; [done|]. cbn [rstrip].
  destruct (rstrip s) as [|c' r].
  - destruct (isspace c) eqn:Hc; [done|]. cbn [ends_space]. exact Hc.
  - exact IH.
Qed.

Lemma rstrip_starts s : starts_space s = false → starts_space (rstrip s) = false.
Proof.
  destruct s as [|c s]; [done|]. cbn [starts_space rstrip]. intros Hc.
  destruct (rstrip s); [by rewrite Hc|done].
Qed.

Lemma lstrip_fixed s : starts_space s = false → lstrip s = s.
Proof. destruct s as [|c s]; [done|]. cbn [starts_space lstrip]. by intros ->. Qed.

Lemma rstrip_fixed s : ends_space s = false → rstrip s = s.
Proof.
  induction s as [|c s IH]; [done|]. cbn [ends_space rstrip].
  destruct s as [|c' s].
  - cbn [rstrip]. by intros ->.
  - intros Hs. by rewrite (IH Hs).
Qed.

Lemma strip_trimmed s : trimmed (strip s) = true.
Proof.
  unfold trimmed, strip.
  by rewrite (rstrip_starts _ (lstrip_starts s)), rstrip_ends.
Qed.

Lemma strip_fixed s : trimmed s = true → strip s = s.
Proof.
  unfold trimmed, strip.
  intros [Hs%negb_true_iff He%negb_true_iff]%andb_true_iff.
  by rewrite (lstrip_fixed _ Hs), (rstrip_fixed _ He).
Qed.

End StripFacts.

(** X1.  [chat_gpt] sends one request, for the model "gpt-4o-mini" with
    the prompt as it was given, and touches no file.  When the provider
    answers, the reply returned is the content stripped: it has no
    whitespace at either end and stripping it again changes nothing.
    When the provider raises, [chat_gpt] raises the same exception. *)
Theorem chat_gpt_reply prompt w fs :
  trace_of (chat_gpt prompt w fs) = [EvChatCompletion "gpt-4o-mini" prompt]
  ∧ files_of (chat_gpt prompt w fs) = fs
  ∧ match w_chat w with
    | Returns content =>
        ∃ reply, result_of (chat_gpt prompt w fs) = Returns reply
                 ∧ reply = PyStr.strip content
                 ∧ PyTrim.trimmed reply = true
                 ∧ PyStr.strip reply = reply
    | Raises e => result_of (chat_gpt prompt w fs) = Raises e
    end.
Proof.
  unfold chat_gpt, bind, call, ret. destruct (w_chat w) as [content|e]; [|done].
  repeat split. exists (PyStr.strip content).
  repeat split; [apply strip_trimmed|apply strip_fixed, strip_trimmed].
Qed.

Lemma completions_app (tr1 tr2 : Trace) :
  completions (tr1 ++ tr2) = completions tr1 ++ completions tr2.
Proof. apply omap_app. Qed.

Lemma synthesized_app (tr1 tr2 : Trace) :
  synthesized (tr1 ++ tr2) = synthesized tr1 ++ synthesized tr2.
Proof. apply omap_app. Qed.

Lemma sleeps_app (tr1 tr2 : Trace) :
  sleeps (tr1 ++ tr2) = sleeps tr1 ++ sleeps tr2.
Proof. apply omap_app. Qed.

Ltac read_lists :=
  unfold trace_of, files_of, result_of in *; cbn [fst snd] in *;
  rewrite ?completions_app, ?synthesized_app, ?sleeps_app, ?printed_app in *.

(** Transcription asks for no completion, synthesizes nothing and does
    not sleep. *)
Lemma speechtotext_from_mic_silent w fs :
  completions (trace_of (speechtotext_from_mic w fs)) = []
  ∧ synthesized (trace_of (speechtotext_from_mic w fs)) = []
  ∧ sleeps (trace_of (speechtotext_from_mic w fs)) = [].
Proof.
  rewrite speechtotext_from_mic_run. unfold recognition_log.
  destruct (w_recognizer w); [|done].
  destruct (w_recognize w) as [r|]; [|done].
  destruct (reason r); try done.
  by destruct (cd_reason (cancellation_details r)).
Qed.

(** What [text_to_speech] synthesizes, once the synthesizer is open. *)
Lemma text_to_speech_silent text w fs :
  completions (trace_of (text_to_speech text w fs)) = []
  ∧ sleeps (trace_of (text_to_speech text w fs)) = []
  ∧ synthesized (trace_of (text_to_speech text w fs)) =
      match w_synthesizer w with Returns _ => [text] | Raises _ => [] end.
Proof.
  rewrite text_to_speech_run.
  destruct (w_synthesizer w) as [[]|e]; [|done].
  destruct (w_speak w) as [result|e]; [|done].
  destruct (s_reason result); try done.
  - by destruct (cd_reason (s_cancellation_details result)).
  - rewrite play_audio_run. read_lists. unfold playback_log.
    destruct (w_ffplay w); by case_bool_decide.
Qed.

(** X2.  In a turn with a non-empty utterance, a completion that
    answers and a synthesizer that opens, exactly one completion is
    requested, with the utterance as it was recognised; exactly one text
    is synthesized, the stripped reply; and the same text is printed
    after "Bot: ". *)
Theorem reply_is_spoken w fs said content :
  result_of (speechtotext_from_mic w fs) = Returns (Some said) →
  PyStr.truthy said = true →
  w_chat w = Returns content →
  w_synthesizer w = Returns () →
  completions (trace_of (iteration w fs)) = [("gpt-4o-mini", said)]
  ∧ synthesized (trace_of (iteration w fs)) = [PyStr.strip content]
  ∧ ("Bot: " +:+ PyStr.strip content) ∈ printed (trace_of (iteration w fs)).
Proof.
  intros Hstt Htruthy Hchat Hopen.
  rewrite iteration_run, respond_run.
  destruct (speechtotext_from_mic_silent w fs) as (Hc & Hs & _).
  destruct (speechtotext_from_mic w fs) as [[tr fs'] r]. read_lists. subst r.
  cbn [truthy]. rewrite Htruthy, Hchat. cbn zeta. cbn [default].
  destruct (text_to_speech_silent (PyStr.strip content) w fs') as (Hc' & _ & Hs').
  rewrite Hopen in Hs'.
  destruct (text_to_speech _ w fs') as [[tr' fs''] r']. read_lists.
  assert (Hbot : ("Bot: " +:+ PyStr.strip content)
                 ∈ printed tr ++ [PyStr.nl +:+ "User: " +:+ said;
                                  "Bot: " +:+ PyStr.strip content] ++ printed tr').
  { apply elem_of_app. right. apply elem_of_app. left.
    apply list_elem_of_further, list_elem_of_here. }
  destruct r' as [[]|e]; [destruct (w_input w) as [line|e]; [destruct (is_quit line)|]|];
    read_lists; rewrite Hc, Hs, Hc', Hs'; cbn;
    (split; [done|split; [done|]]);
    rewrite ?app_nil_r; try done;
    apply elem_of_app; left; try done;
    apply elem_of_app; by left.
Qed.

Lemma reply_is_spoken_witness :
  completions (trace_of (iteration Sample.hello ∅)) = [("gpt-4o-mini", "hello")]
  ∧ synthesized (trace_of (iteration Sample.hello ∅)) = [PyStr.strip "hi there"]
  ∧ ("Bot: " +:+ PyStr.strip "hi there") ∈ printed (trace_of (iteration Sample.hello ∅)).
Proof.
  apply (reply_is_spoken Sample.hello ∅ "hello" "hi there"); reflexivity.
Defined.

(** X3.  A failure of the player stays inside [play_audio]: after a
    completed synthesis [text_to_speech] still returns, prints the
    completion line and the playback error with the message of the
    exception, still attempts the deletion when the file exists, and the
    turn goes on to the prompt instead of the guard of the loop. *)
Theorem player_failure_contained text w fs result e :
  w_synthesizer w = Returns () →
  w_speak w = Returns result →
  s_reason result = SynthesizingAudioCompleted →
  w_ffplay w = Raises e →
  result_of (text_to_speech text w fs) = Returns ()
  ∧ printed (trace_of (text_to_speech text w fs)) =
      ["Speech synthesis completed.";
       "An error occurred while playing audio: " +:+ exn_msg e]
  ∧ never is_remove (trace_of (text_to_speech text w fs))
      = negb (bool_decide ("output.wav" ∈ written w fs))
  ∧ (∀ speech_text content,
       result_of (speechtotext_from_mic w fs) = Returns speech_text →
       truthy speech_text = true →
       w_chat w = Returns content →
       result_of (respond w fs) = Returns ()).
Proof.
  intros Hopen Hspeak Hreason Hplay. split; [|split; [|split]].
  - rewrite text_to_speech_run, Hopen, Hspeak, Hreason, play_audio_run. done.
  - rewrite text_to_speech_run, Hopen, Hspeak, Hreason, play_audio_run.
    read_lists. unfold playback_log. rewrite Hplay. by case_bool_decide.
  - rewrite text_to_speech_run, Hopen, Hspeak, Hreason, play_audio_run.
    read_run. unfold playback_log. rewrite Hplay. by case_bool_decide.
  - intros speech_text content Hstt Htruthy Hchat. rewrite respond_run.
    destruct (speechtotext_from_mic w fs) as [[tr fs'] r]. read_run. subst r.
    rewrite Htruthy, Hchat. cbn zeta.
    rewrite text_to_speech_run, Hopen, Hspeak, Hreason, play_audio_run. done.
Qed.

Lemma player_failure_contained_witness :
  result_of (text_to_speech "hi there"
               (Sample.turn (Returns (Sample.heard "hello")) (Returns "hi there")
                  (Returns Sample.spoken)
                  (Raises (Exn CalledProcessError "ffplay returned non-zero exit status 1"))
                  (Returns ()) (Returns "")) ∅) = Returns ().
Proof.
  refine (proj1 (player_failure_contained "hi there" _ ∅ Sample.spoken
                   (Exn CalledProcessError "ffplay returned non-zero exit status 1")
                   _ _ _ _)); reflexivity.
Defined.


Lemma speechtotext_from_mic_files w fs :
  files_of (speechtotext_from_mic w fs) = fs.
Proof.
  rewrite speechtotext_from_mic_run.
  destruct (w_recognizer w); [|done]. by destruct (w_recognize w).
Qed.


Lemma play_audio_frame file_path w fs :
  files_of (play_audio file_path w fs) ∖ {[file_path]} = fs ∖ {[file_path]}.
Proof.
  rewrite play_audio_run. read_run.
  case_bool_decide; [|done]. destruct (w_remove w); [apply difference_twice_L|done].
Qed.

Lemma written_frame w fs :
  written w fs ∖ {["output.wav"]} = fs ∖ {["output.wav"]}.
Proof.
  unfold written. destruct (w_audio_written w); [|done].
  by rewrite difference_union_distr_l_L, difference_diag_L, union_empty_l_L.
Qed.

Lemma text_to_speech_frame text w fs :
  files_of (text_to_speech text w fs) ∖ {["output.wav"]} = fs ∖ {["output.wav"]}.
Proof.
  rewrite text_to_speech_run.
  destruct (w_synthesizer w) as [[]|e]; [|done].
  destruct (w_speak w) as [result|e]; [|apply written_frame].
  destruct (s_reason result); try apply written_frame.
  pose proof (play_audio_frame "output.wav" w (written w fs)) as Hplay.
  destruct (play_audio _ _ _) as [[tr fs'] r]. read_run.
  by rewrite Hplay, written_frame.
Qed.

Lemma iteration_files w fs :
  files_of (iteration w fs) = files_of (respond w fs).
Proof.
  rewrite iteration_run. destruct (respond w fs) as [[tr fs'] [[]|e]]; [|done].
  destruct (w_input w) as [line|e]; [by destruct (is_quit line)|done].
Qed.

Lemma respond_frame w fs :
  files_of (respond w fs) ∖ {["output.wav"]} = fs ∖ {["output.wav"]}.
Proof.
  rewrite respond_run.
  pose proof (speechtotext_from_mic_files w fs) as Hstt.
  destruct (speechtotext_from_mic w fs) as [[tr fs'] [speech_text|e]];
    read_run; subst fs'; [|done].
  destruct (truthy speech_text); [|done]. cbn zeta.
  destruct (w_chat w) as [content|e]; [|done].
  pose proof (text_to_speech_frame (PyStr.strip content) w fs) as Htts.
  by destruct (text_to_speech _ w fs) as [[tr' fs''] r].
Qed.

(** X4.  Whatever the turns are, the loop creates and deletes no file
    other than "output.wav". *)
Theorem only_output_wav_touched turns fs :
  files_of (main_loop turns fs) ∖ {["output.wav"]} = fs ∖ {["output.wav"]}.
Proof.
  revert fs. induction turns as [|w turns IH]; intros fs; [done|].
  rewrite main_loop_step.
  pose proof (iteration_files w fs) as Hfiles.
  pose proof (respond_frame w fs) as Hframe. rewrite <- Hfiles in Hframe.
  destruct (iteration w fs) as [[tr fs'] [[]|e]]; read_run; try done.
  specialize (IH fs'). destruct (main_loop turns fs') as [[tr' fs''] st].
  read_run. by rewrite IH.
Qed.

(** X5.  When the synthesis does not complete (it was cancelled, or ended
    with any other reason), [text_to_speech] returns without playing and
    without deleting: a file the synthesizer wrote stays on disk. *)
Theorem unfinished_synthesis_keeps_file text w fs result :
  w_synthesizer w = Returns () →
  w_speak w = Returns result →
  s_reason result ≠ SynthesizingAudioCompleted →
  result_of (text_to_speech text w fs) = Returns ()
  ∧ never is_play (trace_of (text_to_speech text w fs)) = true
  ∧ never is_remove (trace_of (text_to_speech text w fs)) = true
  ∧ files_of (text_to_speech text w fs) = written w fs
  ∧ (w_audio_written w = true → "output.wav" ∈ files_of (text_to_speech text w fs)).
Proof.
  intros Hopen Hspeak Hreason.
  rewrite text_to_speech_run, Hopen, Hspeak.
  assert (Hin : w_audio_written w = true → "output.wav" ∈ written w fs).
  { unfold written. intros ->. apply elem_of_union_l. by apply elem_of_singleton. }
  destruct (s_reason result); try done.
  by destruct (cd_reason (s_cancellation_details result)).
Qed.

Lemma unfinished_synthesis_keeps_file_witness :
  result_of (text_to_speech "hi there" Sample.mute ∅) = Returns ()
  ∧ never is_play (trace_of (text_to_speech "hi there" Sample.mute ∅)) = true
  ∧ never is_remove (trace_of (text_to_speech "hi there" Sample.mute ∅)) = true
  ∧ files_of (text_to_speech "hi there" Sample.mute ∅) = written Sample.mute ∅
  ∧ (w_audio_written Sample.mute = true →
     "output.wav" ∈ files_of (text_to_speech "hi there" Sample.mute ∅)).
Proof.
  apply (unfinished_synthesis_keeps_file "hi there" Sample.mute ∅ Sample.unspoken);
    [reflexivity|reflexivity|discriminate].
Defined.

Lemma respond_no_sleep w fs : sleeps (trace_of (respond w fs)) = [].
Proof.
  rewrite respond_run.
  destruct (speechtotext_from_mic_silent w fs) as (_ & _ & Hz).
  destruct (speechtotext_from_mic w fs) as [[tr fs'] [speech_text|e]]; [|done].
  destruct (truthy speech_text); [|read_lists; by rewrite Hz].
  cbn zeta. destruct (w_chat w) as [content|e]; [|read_lists; by rewrite Hz].
  destruct (text_to_speech_silent (PyStr.strip content) w fs') as (_ & Hz' & _).
  destruct (text_to_speech _ w fs') as [[tr' fs''] r].
  read_lists. by rewrite Hz, Hz'.
Qed.

(** X7.  An iteration that goes on sleeps exactly once, for one second,
    be it after the prompt or in the guard; the iteration that breaks does
    not sleep. *)
Theorem one_sleep_per_continuing_turn w fs :
  sleeps (trace_of (iteration w fs)) =
    match result_of (iteration w fs) with
    | Returns Break => []
    | _ => [1]
    end.
Proof.
  rewrite iteration_run. pose proof (respond_no_sleep w fs) as Hz.
  destruct (respond w fs) as [[tr fs'] [[]|e]];
    [destruct (w_input w) as [line|e]; [destruct (is_quit line)|]|];
    read_lists; by rewrite Hz.
Qed.

(** X8.  What transcription prints once the recogniser has answered: the
    invitation to speak; on no match the details and "Retrying..."; on a
    cancellation a line that does contain the name of the reason, and the
    error details when the reason is [Error]; nothing more for recognised
    speech or any other reason.  It touches no file. *)
Theorem recognition_failure_logged w fs r :
  w_recognizer w = Returns () →
  w_recognize w = Returns r →
  printed (trace_of (speechtotext_from_mic w fs)) =
    "Speak into your microphone..."
    :: match reason r with
       | NoMatch =>
           ["No speech could be recognized: " +:+ no_match_details r;
            "Retrying..."]
       | Canceled =>
           ("Speech Recognition canceled: "
            +:+ str_CancellationReason (cd_reason (cancellation_details r)))
           :: match cd_reason (cancellation_details r) with
              | Error => ["Error details: " +:+ error_details (cancellation_details r)]
              | _ => []
              end
       | _ => []
       end
  ∧ PyStr.contains
      (str_CancellationReason (cd_reason (cancellation_details r)))
      ("Speech Recognition canceled: "
       +:+ str_CancellationReason (cd_reason (cancellation_details r))) = true
  ∧ files_of (speechtotext_from_mic w fs) = fs.
Proof.
  intros Hopen Hrec.
  rewrite speechtotext_from_mic_run, Hopen, Hrec. unfold recognition_log.
  split; [|split; [|done]].
  - destruct (reason r); try done.
    by destruct (cd_reason (cancellation_details r)).
  - by destruct (cd_reason (cancellation_details r)).
Qed.

Lemma recognition_failure_logged_witness :
  printed (trace_of (speechtotext_from_mic Sample.canceled ∅)) =
    ["Speak into your microphone...";
     "Speech Recognition canceled: CancellationReason.Error";
     "Error details: Connection failed"].
Proof.
  refine (proj1 (recognition_failure_logged Sample.canceled ∅ Sample.dropped _ _));
    reflexivity.
Defined.

(** X9.  As long as no input line is the quit token, the loop is still
    running after any number of turns, whatever the services did. *)
Theorem no_quit_keeps_running turns fs :
  (∀ w line, w ∈ turns → w_input w = Returns line → is_quit line = false) →
  result_of (main_loop turns fs) = RUNNING.
Proof.
  intros Hno.
  pose proof (main_loop_terminated turns fs) as Hterm.
  pose proof (main_loop_never_crashes turns fs) as Hcrash.
  destruct (result_of (main_loop turns fs)) as [| |e]; [done| |by destruct (Hcrash e)].
  destruct Hterm as (w & line & Hin & Hline & Hquit); [done|].
  by rewrite (Hno w line Hin Hline) in Hquit.
Qed.

Lemma no_quit_keeps_running_witness :
  result_of (main_loop [Sample.hello; Sample.no_match] ∅) = RUNNING.
Proof.
  apply (no_quit_keeps_running [Sample.hello; Sample.no_match] ∅).
  intros w line Hin Hline.
  apply elem_of_cons in Hin as [->|Hin];
    [|apply elem_of_cons in Hin as [->|Hin]; [|by apply elem_of_nil in Hin]];
    injection Hline as <-; reflexivity.
Defined.

(** X10.  An exception of the constructor of the recogniser's
    configuration that is not a [TypeError] is not caught: the process
    ends with that exception, before anything of the pipeline. *)
Theorem constructor_error_propagates environ new_SpeechConfig turns fs e :
  truthy (environ !! "OPENAI_API_KEY") = true →
  new_SpeechConfig (environ !! "AZURE_TTS_KEY") (environ !! "AZURE_TTS_REGION")
    = Raises e →
  exn_class e ≠ TypeError →
  program environ new_SpeechConfig turns fs = ([], fs, Died e).
Proof.
  intros Hkey Hsdk Hclass.
  unfold program, startup, load_api_key, SpeechToTextManager_init, getenv.
  rewrite Hkey, Hsdk. cbn [negb]. by destruct (exn_class e).
Qed.

Lemma constructor_error_propagates_witness :
  program Sdk.only_openai Sdk.strict [Sample.hello] ∅ =
    ([], ∅, Died (Exn ValueError "cannot construct SpeechConfig with the given arguments")).
Proof.
  apply (constructor_error_propagates Sdk.only_openai Sdk.strict [Sample.hello] ∅);
    [reflexivity|reflexivity|discriminate].
Defined.

(** X11.  A turn that gives no text to the synthesizer leaves the files
    as they were. *)
Theorem files_change_only_with_synthesis w fs :
  synthesized (trace_of (iteration w fs)) = [] →
  files_of (iteration w fs) = fs.
Proof.
  rewrite iteration_files.
  assert (Hsame : synthesized (trace_of (iteration w fs))
                  = synthesized (trace_of (respond w fs))).
  { rewrite iteration_run.
    destruct (respond w fs) as [[tr fs'] [[]|e]];
      [destruct (w_input w) as [line|e]; [destruct (is_quit line)|]|];
      read_lists; cbn; by rewrite ?app_nil_r. }
  rewrite Hsame. clear Hsame. rewrite respond_run.
  pose proof (speechtotext_from_mic_files w fs) as Hstt.
  destruct (speechtotext_from_mic w fs) as [[tr fs'] [speech_text|e]];
    read_lists; subst fs'; [|done].
  destruct (truthy speech_text); [|done]. cbn zeta.
  destruct (w_chat w) as [content|e]; [|done].
  destruct (text_to_speech_silent (PyStr.strip content) w fs) as (_ & _ & Hs).
  pose proof (text_to_speech_run (PyStr.strip content) w fs) as Hrun.
  destruct (w_synthesizer w) as [[]|e].
  - destruct (text_to_speech _ w fs) as [[tr' fs''] r]. read_lists. rewrite Hs.
    intros [_ Habs]%app_eq_nil. cbn in Habs. discriminate Habs.
  - by rewrite Hrun.
Qed.

Lemma files_change_only_with_synthesis_witness :
  files_of (iteration Sample.no_match {["notes.txt"]}) = {["notes.txt"]}.
Proof.
  apply (files_change_only_with_synthesis Sample.no_match {["notes.txt"]}).
  reflexivity.
Defined.
